(** * Bootloader integration layer of aktualizr
    (src/libaktualizr/bootloader/bootloader.cc)

    A shallow embedding of [Bootloader]: the per-backend dispatch of
    [setBootOK], [updateNotify] and [installNotify], the reboot
    sentinel / durable flag protocol ([rebootDetected], [rebootFlagSet],
    [rebootFlagClear]) and [reboot].

    The member functions act on the world outside the process: the
    filesystem, the storage record behind [INvStorage], the command
    executor behind [Utils::shell], and the system calls [setuid], [sync]
    and [system].  They are written in a state-and-exception monad over
    that world; every external call is recorded, in program order, in a
    trace of events. *)

From Stdlib Require Import ZArith.
From stdpp Require Import gmap strings list.

(** ** Events *)

Inductive LogLevel := LInfo | LWarning | LError.

(** One constructor per external call made by bootloader.cc.  A log event
    carries the operands streamed into the logger, in order. *)
Inductive Event :=
| EvShell (cmd : string)                    (* Utils::shell(cmd, &sink) *)
| EvLog (lvl : LogLevel) (msg : list string)  (* LOG_INFO / LOG_WARNING / LOG_ERROR *)
| EvOpenRead (path : string)                (* std::ifstream t(path) *)
| EvExists (path : string)                  (* boost::filesystem::exists *)
| EvWriteFile (path : string) (content : string) (* Utils::writeFile *)
| EvRemove (path : string)                  (* boost::filesystem::remove *)
| EvLoadNeedReboot                          (* storage_.loadNeedReboot *)
| EvStoreNeedReboot                         (* storage_.storeNeedReboot *)
| EvClearNeedReboot                         (* storage_.clearNeedReboot *)
| EvCreateSecureDirectory (dir : string)    (* Utils::createSecureDirectory *)
| EvSetuid (uid : Z)                        (* setuid *)
| EvSync                                    (* sync *)
| EvSystem (cmd : string).                  (* system *)

Global Instance LogLevel_eq_dec : EqDecision LogLevel.
Proof. solve_decision. Defined.

Global Instance Event_eq_dec : EqDecision Event.
Proof. solve_decision. Defined.

(** ** The world and the platform *)

(** The world the bootloader acts upon: the files on disk (path to
    content), the "need reboot" record kept by the storage, and the
    trace of external calls made so far. *)
Record World := mkWorld {
  fs : gmap string string;
  need_reboot_stored : bool;
  trace : list Event
}.

(** The collaborators whose code is outside bootloader.cc.  Each answer
    may depend on everything that happened before (the trace).
    - [shell h cmd sink]: exit status of [Utils::shell(cmd, &sink)] and
      the content of [sink] after the call;
    - [createSecureDirectory h dir]: whether the directory could be
      created with owner-only permissions;
    - [setuid h uid], [system h cmd]: return values of the system calls;
    - [path_append dir name]: boost's [dir / name]. *)
Record Platform := mkPlatform {
  shell : list Event -> string -> string -> Z * string;
  createSecureDirectory : list Event -> string -> bool;
  setuid : list Event -> Z -> Z;
  system : list Event -> string -> Z;
  path_append : string -> string -> string
}.

(** ** Configuration and object state *)

(** Modelled from the spec: [RollbackMode] is declared outside
    bootloader.cc; the spec gives it four values, named here after the
    case labels of the switches.  [kUnrecognized] stands for any value of
    the enum's underlying type other than the four enumerators: the value
    that reaches the [default] label of a switch. *)
Inductive RollbackMode :=
| kBootloaderNone
| kUbootGeneric
| kUbootMasked
| kFioVB
| kUnrecognized.

Record BootloaderConfig := mkBootloaderConfig {
  rollback_mode : RollbackMode;
  reboot_sentinel_dir : string;
  reboot_sentinel_name : string;
  reboot_command : string
}.

Record Bootloader := mkBootloader {
  config_ : BootloaderConfig;
  reboot_sentinel_ : string;
  reboot_command_ : string;
  reboot_detect_supported_ : bool
}.

(** What [installNotify] uses of an [Uptane::Target]. *)
Record Target := mkTarget {
  sha256Hash : string
}.

(** ** The monad *)

Inductive Exception := NotImplementedException.

Inductive Outcome (A : Type) :=
| Returned (a : A)
| Thrown (e : Exception).
Arguments Returned {A} a.
Arguments Thrown {A} e.

Definition M (A : Type) : Type := World -> Outcome A * World.

Global Instance M_ret : MRet M := fun A a w => (Returned a, w).

Global Instance M_bind : MBind M := fun A B f m w =>
  match m w with
  | (Returned a, w') => f a w'
  | (Thrown e, w') => (Thrown e, w')
  end.

Definition throw {A} (e : Exception) : M A := fun w => (Thrown e, w).

Definition emit (e : Event) : M unit := fun w =>
  (Returned tt, mkWorld (fs w) (need_reboot_stored w) (trace w ++ [e])).

Definition LOG (lvl : LogLevel) (msg : list string) : M unit :=
  emit (EvLog lvl msg).

(** The world after running [m]; the value [m] returned. *)
Definition exec {A} (m : M A) (w : World) : World := snd (m w).
Definition outcome {A} (m : M A) (w : World) : Outcome A := fst (m w).

(** ** std::string operations used by installNotify *)

Module StdString.

Fixpoint take (n : nat) (s : string) : string :=
  match n, s with
  | S n', String c s' => String c (take n' s')
  | _, _ => EmptyString
  end.

Fixpoint drop (n : nat) (s : string) : string :=
  match n, s with
  | S n', String _ s' => drop n' s'
  | _, _ => s
  end.

(** [s.find(pat)]: position of the first occurrence, [None] for npos. *)
Definition find (s pat : string) : option nat := String.index 0 pat s.

(** [s.erase(pos, len)] for [pos <= s.size()]: removes
    [min(len, s.size() - pos)] characters starting at [pos]. *)
Definition erase (s : string) (pos len : nat) : string :=
  take pos s +:+ drop (pos + len) s.

(** [a.compare(b) != 0] *)
Definition differs (a b : string) : bool := negb (String.eqb a b).

End StdString.

(** ** External calls *)

Section Bootloader.

Variable env : Platform.

(** [Utils::shell(cmd, &sink)]: returns the exit status; [sink] is
    passed by pointer, its new content is returned with the status. *)
Definition Utils_shell (cmd : string) (sink : string) : M (Z * string) :=
  fun w =>
    (Returned (shell env (trace w) cmd sink),
     mkWorld (fs w) (need_reboot_stored w) (trace w ++ [EvShell cmd])).

Definition Utils_createSecureDirectory (dir : string) : M bool := fun w =>
  (Returned (createSecureDirectory env (trace w) dir),
   mkWorld (fs w) (need_reboot_stored w) (trace w ++ [EvCreateSecureDirectory dir])).

(** [std::ifstream t(path)] read to the end: the content of the file,
    the empty string when the file cannot be opened. *)
Definition ifstream_read (path : string) : M string := fun w =>
  (Returned (default EmptyString (fs w !! path)),
   mkWorld (fs w) (need_reboot_stored w) (trace w ++ [EvOpenRead path])).

Definition fs_exists (path : string) : M bool := fun w =>
  (Returned (bool_decide (is_Some (fs w !! path))),
   mkWorld (fs w) (need_reboot_stored w) (trace w ++ [EvExists path])).

Definition fs_remove (path : string) : M unit := fun w =>
  (Returned tt,
   mkWorld (delete path (fs w)) (need_reboot_stored w) (trace w ++ [EvRemove path])).

(** Modelled from the spec: [Utils::writeFile] is defined outside
    bootloader.cc; it leaves a file with the given content at [path]. *)
Definition Utils_writeFile (path content : string) : M unit := fun w =>
  (Returned tt,
   mkWorld (<[path := content]> (fs w)) (need_reboot_stored w)
           (trace w ++ [EvWriteFile path content])).

(** Modelled from the spec: the Durable Flag Store interface,
    [loadNeedReboot() -> bool]; the storage classes are not in
    bootloader.cc. *)
Definition storage_loadNeedReboot : M bool := fun w =>
  (Returned (need_reboot_stored w),
   mkWorld (fs w) (need_reboot_stored w) (trace w ++ [EvLoadNeedReboot])).

(** Modelled from the spec: the Durable Flag Store interface,
    [storeNeedReboot()] sets the flag true. *)
Definition storage_storeNeedReboot : M unit := fun w =>
  (Returned tt, mkWorld (fs w) true (trace w ++ [EvStoreNeedReboot])).

(** Modelled from the spec: the Durable Flag Store interface,
    [clearNeedReboot()] sets the flag false. *)
Definition storage_clearNeedReboot : M unit := fun w =>
  (Returned tt, mkWorld (fs w) false (trace w ++ [EvClearNeedReboot])).

Definition sys_setuid (uid : Z) : M Z := fun w =>
  (Returned (setuid env (trace w) uid),
   mkWorld (fs w) (need_reboot_stored w) (trace w ++ [EvSetuid uid])).

Definition sys_sync : M unit := emit EvSync.

Definition sys_system (cmd : string) : M Z := fun w =>
  (Returned (system env (trace w) cmd),
   mkWorld (fs w) (need_reboot_stored w) (trace w ++ [EvSystem cmd])).

(** [if (rc != 0) { LOG_WARNING << msg; }] *)
Definition warn_if_failed (rc : Z) (msg : string) : M unit :=
  if negb (rc =? 0)%Z then LOG LWarning [msg] else mret tt.

(** A block of statements run one after the other. *)
Fixpoint block (stmts : list (M unit)) : M unit :=
  match stmts with
  | [] => mret tt
  | s :: rest => s ;; block rest
  end.

(** ** Bootloader::Bootloader *)

Definition Bootloader_new (config : BootloaderConfig) : M Bootloader :=
  let reboot_sentinel :=
    path_append env (reboot_sentinel_dir config) (reboot_sentinel_name config) in
  let reboot_command := reboot_command config in
  created ← Utils_createSecureDirectory (reboot_sentinel_dir config);
  if negb created then
    LOG LWarning ["Could not create "; reboot_sentinel_dir config;
                  " securely, reboot detection support disabled"];;
    mret (mkBootloader config reboot_sentinel reboot_command false)
  else
    mret (mkBootloader config reboot_sentinel reboot_command true).

(** ** Bootloader::setBootOK *)

Definition setBootOK (b : Bootloader) : M unit :=
  let sink := EmptyString in
  match rollback_mode (config_ b) with
  | kBootloaderNone => mret tt
  | kUbootGeneric =>
      '(rc, sink) ← Utils_shell "fw_setenv bootcount 0" sink;
      warn_if_failed rc "Failed resetting bootcount"
  | kUbootMasked =>
      '(rc, sink) ← Utils_shell "fw_setenv bootcount 0" sink;
      warn_if_failed rc "Failed resetting bootcount";;
      '(rc, sink) ← Utils_shell "fw_setenv upgrade_available 0" sink;
      warn_if_failed rc "Failed resetting upgrade_available for u-boot"
  | kFioVB =>
      '(rc, sink) ← Utils_shell "fiovb_setenv bootcount 0" sink;
      warn_if_failed rc "Failed resetting bootcount";;
      '(rc, sink) ← Utils_shell "fiovb_setenv upgrade_available 0" sink;
      warn_if_failed rc "Failed resetting upgrade_available"
  | kUnrecognized => throw NotImplementedException
  end.

(** ** Bootloader::updateNotify *)

Definition updateNotify (b : Bootloader) : M unit :=
  let sink := EmptyString in
  match rollback_mode (config_ b) with
  | kBootloaderNone => mret tt
  | kUbootGeneric =>
      '(rc, sink) ← Utils_shell "fw_setenv bootcount 0" sink;
      warn_if_failed rc "Failed resetting bootcount";;
      '(rc, sink) ← Utils_shell "fw_setenv rollback 0" sink;
      warn_if_failed rc "Failed resetting rollback flag"
  | kUbootMasked =>
      '(rc, sink) ← Utils_shell "fw_setenv bootcount 0" sink;
      warn_if_failed rc "Failed resetting bootcount";;
      '(rc, sink) ← Utils_shell "fw_setenv upgrade_available 1" sink;
      warn_if_failed rc "Failed setting upgrade_available for u-boot";;
      '(rc, sink) ← Utils_shell "fw_setenv rollback 0" sink;
      warn_if_failed rc "Failed resetting rollback flag"
  | kFioVB =>
      '(rc, sink) ← Utils_shell "fiovb_setenv bootcount 0" sink;
      warn_if_failed rc "Failed resetting bootcount";;
      '(rc, sink) ← Utils_shell "fiovb_setenv upgrade_available 1" sink;
      warn_if_failed rc "Failed setting upgrade_available";;
      '(rc, sink) ← Utils_shell "fiovb_setenv rollback 0" sink;
      warn_if_failed rc "Failed resetting rollback flag"
  | kUnrecognized => throw NotImplementedException
  end.

(** ** Bootloader::installNotify *)

Definition version_flag : string := "bootfirmware_version".

Definition version_file_of (target_hash : string) : string :=
  "/ostree/deploy/lmp/deploy/" +:+ target_hash +:+ ".0"
    +:+ "/usr/lib/firmware/version.txt".

(** The [find] / [erase] pair applied to the content of the version
    file: drop the first occurrence of [version_flag] and the one
    character after it. *)
Definition drop_version_flag (content : string) : string :=
  match StdString.find content version_flag with
  | Some i => StdString.erase content i (String.length version_flag + 1)
  | None => content
  end.

Definition installNotify (b : Bootloader) (target : Target) : M unit :=
  let sink := EmptyString in
  let target_hash := sha256Hash target in
  let version_file := version_file_of target_hash in
  content ← ifstream_read version_file;
  LOG LInfo ["Reading target boot firmware version file: "; version_file];;
  let target_firmware_ver := drop_version_flag content in
  LOG LInfo ["Target boot firmware version: "; target_firmware_ver];;
  match rollback_mode (config_ b) with
  | kBootloaderNone => mret tt
  | kUbootGeneric => mret tt
  | kUbootMasked =>
      '(rc, sink) ← Utils_shell "fw_printenv bootfirmware_version" sink;
      warn_if_failed rc "Failed getting bootfirmware_version for u-boot";;
      LOG LInfo ["Current boot firmware version: "; sink];;
      if StdString.differs sink target_firmware_ver then
        LOG LInfo ["Update boot firmware to version: "; target_firmware_ver];;
        '(rc, sink) ← Utils_shell "fw_setenv bootupgrade_available 1" sink;
        warn_if_failed rc "Failed setting bootupgrade_available for u-boot"
      else
        LOG LInfo ["Update of boot firmware is not needed"; sink]
  | kFioVB =>
      '(rc, sink) ← Utils_shell "fiovb_printenv bootfirmware_version" sink;
      warn_if_failed rc "Failed getting bootfirmware_version for u-boot";;
      LOG LInfo ["Current boot firmware version: "; sink];;
      if StdString.differs sink target_firmware_ver then
        LOG LInfo ["Update boot firmware to version: "; target_firmware_ver];;
        '(rc, sink) ← Utils_shell "fiovb_setenv bootupgrade_available 1" sink;
        warn_if_failed rc "Failed to set bootupgrade_available"
      else
        LOG LInfo ["Update of boot firmware is not needed"; sink]
  | kUnrecognized => throw NotImplementedException
  end.

(** ** Reboot detection *)

Definition supportRebootDetection (b : Bootloader) : bool :=
  reboot_detect_supported_ b.

Definition rebootDetected (b : Bootloader) : M bool :=
  if negb (reboot_detect_supported_ b) then mret false
  else
    sentinel_exists ← fs_exists (reboot_sentinel_ b);
    need_reboot ← storage_loadNeedReboot;
    mret (need_reboot && negb sentinel_exists).

(** The two statements after the guard of [rebootFlagSet]. *)
Definition rebootFlagSet_body (b : Bootloader) : list (M unit) :=
  [ Utils_writeFile (reboot_sentinel_ b) EmptyString;  (* empty file *)
    storage_storeNeedReboot ].

Definition rebootFlagSet (b : Bootloader) : M unit :=
  if negb (reboot_detect_supported_ b) then mret tt
  else block (rebootFlagSet_body b).

(** The two statements after the guard of [rebootFlagClear]. *)
Definition rebootFlagClear_body (b : Bootloader) : list (M unit) :=
  [ storage_clearNeedReboot;
    fs_remove (reboot_sentinel_ b) ].

Definition rebootFlagClear (b : Bootloader) : M unit :=
  if negb (reboot_detect_supported_ b) then mret tt
  else block (rebootFlagClear_body b).

(** ** Bootloader::reboot *)

Definition reboot (b : Bootloader) (fake_reboot : bool) : M unit :=
  if fake_reboot then fs_remove (reboot_sentinel_ b)
  else
    rc ← sys_setuid 0;
    if negb (rc =? 0)%Z then
      LOG LError ["Failed to set/verify a root user so cannot reboot system programmatically"]
    else
      sys_sync;;
      rc ← sys_system (reboot_command_ b);
      if negb (rc =? 0)%Z then
        LOG LError ["Failed to execute the reboot command: "; reboot_command_ b]
      else mret tt.

End Bootloader.

(** ** Observations on traces and worlds *)

(** The events [m] adds to the trace when run from [w]. *)
Definition issued {A} (m : M A) (w : World) : list Event :=
  drop (length (trace w)) (trace (exec m w)).

(** The commands given to [Utils::shell], in order. *)
Fixpoint shell_commands (evs : list Event) : list string :=
  match evs with
  | [] => []
  | EvShell cmd :: rest => cmd :: shell_commands rest
  | _ :: rest => shell_commands rest
  end.

(** How many times [cmd] was given to [Utils::shell]. *)
Definition count_shell (cmd : string) (evs : list Event) : nat :=
  length (filter (fun c => c = cmd) (shell_commands evs)).

Definition sentinel_exists (b : Bootloader) (w : World) : bool :=
  bool_decide (is_Some (fs w !! reboot_sentinel_ b)).

Definition file_content (w : World) (path : string) : string :=
  default EmptyString (fs w !! path).

Definition recognized (m : RollbackMode) : bool :=
  match m with
  | kUnrecognized => false
  | _ => true
  end.

(** The masked U-Boot and FioVB backends, the two for which
    [installNotify] talks to the executor. *)
Definition firmware_backend (m : RollbackMode) : bool :=
  match m with
  | kUbootMasked | kFioVB => true
  | _ => false
  end.

Definition printenv_command (m : RollbackMode) : string :=
  match m with
  | kFioVB => "fiovb_printenv bootfirmware_version"
  | _ => "fw_printenv bootfirmware_version"
  end.

Definition bootupgrade_command (m : RollbackMode) : string :=
  match m with
  | kFioVB => "fiovb_setenv bootupgrade_available 1"
  | _ => "fw_setenv bootupgrade_available 1"
  end.

Definition printenv_warning : Event :=
  EvLog LWarning ["Failed getting bootfirmware_version for u-boot"].

(** The trace at the moment [installNotify] calls the printenv command:
    the version file has been opened and two lines logged. *)
Definition trace_at_printenv (target : Target) (w : World) : list Event :=
  let version_file := version_file_of (sha256Hash target) in
  trace w ++
  [ EvOpenRead version_file;
    EvLog LInfo ["Reading target boot firmware version file: "; version_file];
    EvLog LInfo ["Target boot firmware version: ";
                 drop_version_flag (file_content w version_file)] ].

(** What the executor answers to that call: exit status and [sink]. *)
Definition printenv_answer (env : Platform) (b : Bootloader) (target : Target)
    (w : World) : Z * string :=
  shell env (trace_at_printenv target w)
        (printenv_command (rollback_mode (config_ b))) EmptyString.

(** A fault after the first [n] statements of a block: the remaining
    statements are not run. *)
Definition crash_after (n : nat) (body : list (M unit)) (w : World) : World :=
  exec (block (take n body)) w.

(** The round trip of the spec (section 8): set, query, cross a boundary
    by removing the sentinel only, query, clear, query. *)
Definition roundtrip (env : Platform) (b : Bootloader) : M (bool * bool * bool) :=
  rebootFlagSet b;;
  after_set ← rebootDetected b;
  reboot env b true;;
  after_boundary ← rebootDetected b;
  rebootFlagClear b;;
  after_clear ← rebootDetected b;
  mret (after_set, after_boundary, after_clear).

(** ** The decision table of the spec (section 4.1), as lists of commands *)

Definition acknowledgeBootOk_table (m : RollbackMode) : list string :=
  match m with
  | kBootloaderNone => []
  | kUbootGeneric => ["fw_setenv bootcount 0"]
  | kUbootMasked => ["fw_setenv bootcount 0"; "fw_setenv upgrade_available 0"]
  | kFioVB => ["fiovb_setenv bootcount 0"; "fiovb_setenv upgrade_available 0"]
  | kUnrecognized => []
  end.

Definition notifyUpdateApplied_table (m : RollbackMode) : list string :=
  match m with
  | kBootloaderNone => []
  | kUbootGeneric => ["fw_setenv bootcount 0"; "fw_setenv rollback 0"]
  | kUbootMasked =>
      ["fw_setenv bootcount 0"; "fw_setenv upgrade_available 1"; "fw_setenv rollback 0"]
  | kFioVB =>
      ["fiovb_setenv bootcount 0"; "fiovb_setenv upgrade_available 1";
       "fiovb_setenv rollback 0"]
  | kUnrecognized => []
  end.

(** ** Statements of the spec that the code does not satisfy as worded *)

(** The target version as the spec words it (section 4.1): the content of
    the version file with a leading key prefix stripped when present. *)
Definition strip_leading_key (content : string) : string :=
  if String.prefix "bootfirmware_version=" content
  then StdString.drop (String.length "bootfirmware_version=") content
  else content.

(** Section 8, round trip, for an arbitrary state. *)
Definition roundtrip_as_worded (env : Platform) (b : Bootloader) (w : World) : Prop :=
  outcome (roundtrip env b) w = Returned (false, true, false) /\
  need_reboot_stored (exec (roundtrip env b) w) = false.

(** Section 8, firmware-version notification: a missing version file
    results in no command invocation and no raised error. *)
Definition missing_file_as_worded (env : Platform) (b : Bootloader)
    (target : Target) (w : World) : Prop :=
  fs w !! version_file_of (sha256Hash target) = None ->
  outcome (installNotify env b target) w = Returned tt /\
  count_shell (bootupgrade_command (rollback_mode (config_ b)))
              (issued (installNotify env b target) w) = 0.

(** Section 4.1, firmware-version notification: the marker is set
    exactly once when the version reported by the executor differs from
    the file content stripped of its leading key, and not otherwise. *)
Definition version_check_as_worded (env : Platform) (b : Bootloader)
    (target : Target) (w : World) : Prop :=
  let target_ver :=
    strip_leading_key (file_content w (version_file_of (sha256Hash target))) in
  let current := snd (printenv_answer env b target w) in
  count_shell (bootupgrade_command (rollback_mode (config_ b)))
              (issued (installNotify env b target) w)
  = if StdString.differs current target_ver then 1 else 0.

(** ** Concrete platforms, bootloaders and worlds *)

(** An executor that exits with [rc] and prints [out], whatever the
    command; [Utils::shell] appends what is printed to [sink]. *)
Definition platform_answering (rc : Z) (out : string) (setuid_rc system_rc : Z)
    : Platform :=
  mkPlatform (fun _ _ sink => (rc, sink +:+ out))
             (fun _ _ => true)
             (fun _ _ => setuid_rc)
             (fun _ _ => system_rc)
             (fun dir name => dir +:+ "/" +:+ name).

Definition sample_config (m : RollbackMode) : BootloaderConfig :=
  mkBootloaderConfig m "/var/run/aktualizr-session" "need_reboot" "/sbin/reboot".

Definition sample_bootloader (m : RollbackMode) (supported : bool) : Bootloader :=
  mkBootloader (sample_config m) "/var/run/aktualizr-session/need_reboot"
               "/sbin/reboot" supported.

Definition sample_target : Target := mkTarget "0a1b2c".

Definition sample_version_file : string :=
  "/ostree/deploy/lmp/deploy/0a1b2c.0/usr/lib/firmware/version.txt".

(** A platform on which the sentinel directory cannot be created
    securely. *)
Definition platform_insecure_dir : Platform :=
  mkPlatform (fun _ _ sink => (0%Z, sink))
             (fun _ _ => false)
             (fun _ _ => 0%Z)
             (fun _ _ => 0%Z)
             (fun dir name => dir +:+ "/" +:+ name).

(** A world with no file, and worlds with one file. *)
Definition world_empty (flag : bool) : World := mkWorld ∅ flag [].

Definition world_with (path content : string) (flag : bool) : World :=
  mkWorld {[ path := content ]} flag [].

(** What [reboot] logs when [setuid(0)] fails. *)
Definition setuid_failed_message : list string :=
  ["Failed to set/verify a root user so cannot reboot system programmatically"].

(** ** Further observations *)

(** How many warnings were logged. *)
Fixpoint count_warnings (evs : list Event) : nat :=
  match evs with
  | [] => 0
  | EvLog LWarning _ :: rest => S (count_warnings rest)
  | _ :: rest => count_warnings rest
  end.

(** What [installNotify] does before its switch: it opens the version
    file and logs two lines. *)
Definition installNotify_preamble (target : Target) (w : World) : list Event :=
  let version_file := version_file_of (sha256Hash target) in
  [ EvOpenRead version_file;
    EvLog LInfo ["Reading target boot firmware version file: "; version_file];
    EvLog LInfo ["Target boot firmware version: ";
                 drop_version_flag (file_content w version_file)] ].

(** What [installNotify] logs when the command that sets the marker
    fails. *)
Definition bootupgrade_warning (m : RollbackMode) : Event :=
  EvLog LWarning
    [match m with
     | kFioVB => "Failed to set bootupgrade_available"
     | _ => "Failed setting bootupgrade_available for u-boot"
     end].

(** The trace at the moment [installNotify] calls the command that sets
    the marker, which it does when the two versions differ. *)
Definition trace_at_bootupgrade (env : Platform) (b : Bootloader)
    (target : Target) (w : World) : list Event :=
  let answer := printenv_answer env b target w in
  trace_at_printenv target w ++
  [EvShell (printenv_command (rollback_mode (config_ b)))] ++
  (if negb (fst answer =? 0)%Z then [printenv_warning] else []) ++
  [ EvLog LInfo ["Current boot firmware version: "; snd answer];
    EvLog LInfo ["Update boot firmware to version: ";
                 drop_version_flag
                   (file_content w (version_file_of (sha256Hash target)))] ].

(** What the executor answers to that call; [sink] goes in as the
    printenv call left it. *)
Definition bootupgrade_answer (env : Platform) (b : Bootloader)
    (target : Target) (w : World) : Z * string :=
  shell env (trace_at_bootupgrade env b target w)
        (bootupgrade_command (rollback_mode (config_ b)))
        (snd (printenv_answer env b target w)).

(** All the events of [installNotify] for the two firmware backends, in
    terms of the two answers of the executor. *)
Definition installNotify_events (env : Platform) (b : Bootloader)
    (target : Target) (w : World) : list Event :=
  let mode := rollback_mode (config_ b) in
  let target_ver :=
    drop_version_flag (file_content w (version_file_of (sha256Hash target))) in
  let answer := printenv_answer env b target w in
  installNotify_preamble target w ++
  [EvShell (printenv_command mode)] ++
  (if negb (fst answer =? 0)%Z then [printenv_warning] else []) ++
  [EvLog LInfo ["Current boot firmware version: "; snd answer]] ++
  (if StdString.differs (snd answer) target_ver then
     [ EvLog LInfo ["Update boot firmware to version: "; target_ver];
       EvShell (bootupgrade_command mode) ] ++
     (if negb (fst (bootupgrade_answer env b target w) =? 0)%Z
      then [bootupgrade_warning mode] else [])
   else
     [EvLog LInfo ["Update of boot firmware is not needed"; snd answer]]).

(** A process start followed by a query: the object is constructed, then
    asked whether a reboot was detected. *)
Definition start_and_detect (env : Platform) (config : BootloaderConfig) : M bool :=
  b ← Bootloader_new env config;
  rebootDetected b.

(** A process start followed by the whole protocol: set, clear, query. *)
Definition start_and_use (env : Platform) (config : BootloaderConfig) : M bool :=
  b ← Bootloader_new env config;
  rebootFlagSet b;;
  rebootFlagClear b;;
  rebootDetected b.


(** ** Basic facts *)

Lemma World_eta (w : World) :
  w = mkWorld (fs w) (need_reboot_stored w) (trace w ++ []).
Proof. destruct w; cbn. rewrite app_nil_r. reflexivity. Qed.

Lemma issued_app {A} (m : M A) (w : World) (evs : list Event) :
  trace (exec m w) = trace w ++ evs -> issued m w = evs.
Proof.
  intros H. unfold issued. rewrite H. apply drop_app_length.
Qed.

Lemma issued_run {A} (m : M A) (w : World) r f n (evs : list Event) :
  m w = (r, mkWorld f n (trace w ++ evs)) -> issued m w = evs.
Proof.
  intros H. apply issued_app. unfold exec. rewrite H. reflexivity.
Qed.

Ltac unfold_calls :=
  unfold exec, outcome, mbind, M_bind, mret, M_ret, throw, warn_if_failed,
    LOG, sys_sync, emit, Utils_shell, ifstream_read, fs_exists, fs_remove,
    Utils_writeFile, storage_loadNeedReboot, storage_storeNeedReboot,
    storage_clearNeedReboot, sys_setuid, sys_system,
    Utils_createSecureDirectory; cbn.

Ltac destruct_calls :=
  repeat match goal with
  | |- context [shell ?e ?h ?c ?s] =>
      let rc := fresh "rc" in
      let out := fresh "out" in
      destruct (shell e h c s) as [rc out] eqn:?; cbn
  | |- context [negb (?rc =? 0)%Z] => destruct (negb (rc =? 0)%Z) eqn:?; cbn
  end.

Ltac finish_run :=
  eexists; split; [rewrite <- ?app_assoc; cbn; reflexivity | reflexivity].

(** ** Rollback strategy dispatch *)

Lemma setBootOK_run env b w :
  exists evs,
    setBootOK env b w =
      (if recognized (rollback_mode (config_ b)) then Returned tt
       else Thrown NotImplementedException,
       mkWorld (fs w) (need_reboot_stored w) (trace w ++ evs)) /\
    shell_commands evs = acknowledgeBootOk_table (rollback_mode (config_ b)).
Proof.
  unfold setBootOK.
  destruct (rollback_mode (config_ b)); unfold_calls; destruct_calls;
    try finish_run.
  all: exists []; split; [rewrite <- World_eta; reflexivity | reflexivity].
Qed.

Lemma updateNotify_run env b w :
  exists evs,
    updateNotify env b w =
      (if recognized (rollback_mode (config_ b)) then Returned tt
       else Thrown NotImplementedException,
       mkWorld (fs w) (need_reboot_stored w) (trace w ++ evs)) /\
    shell_commands evs = notifyUpdateApplied_table (rollback_mode (config_ b)).
Proof.
  unfold updateNotify.
  destruct (rollback_mode (config_ b)); unfold_calls; destruct_calls;
    try finish_run.
  all: exists []; split; [rewrite <- World_eta; reflexivity | reflexivity].
Qed.

Lemma installNotify_unrecognized env b target w :
  rollback_mode (config_ b) = kUnrecognized ->
  outcome (installNotify env b target) w = Thrown NotImplementedException.
Proof.
  intros Hm. unfold installNotify. rewrite Hm. reflexivity.
Qed.

(** What [installNotify] does for the two firmware backends, in terms of
    the answer to the printenv call. *)
Lemma installNotify_run env b target w :
  firmware_backend (rollback_mode (config_ b)) = true ->
  let mode := rollback_mode (config_ b) in
  let target_ver :=
    drop_version_flag (file_content w (version_file_of (sha256Hash target))) in
  let rc := fst (printenv_answer env b target w) in
  let current := snd (printenv_answer env b target w) in
  exists evs,
    installNotify env b target w =
      (Returned tt, mkWorld (fs w) (need_reboot_stored w) (trace w ++ evs)) /\
    shell_commands evs =
      printenv_command mode ::
        (if StdString.differs current target_ver then [bootupgrade_command mode]
         else []) /\
    (rc <> 0%Z -> printenv_warning ∈ evs).
Proof.
  intros Hm. cbn zeta.
  unfold printenv_answer, trace_at_printenv, file_content, installNotify.
  destruct (rollback_mode (config_ b)); try discriminate Hm; clear Hm.
  all: unfold_calls; rewrite <- !app_assoc; cbn.
  all: destruct (shell env _ _ _) as [rc current] eqn:Hs; cbn.
  all: destruct (negb (rc =? 0)%Z) eqn:Hrc; cbn;
       destruct (StdString.differs current _) eqn:Hd; cbn; destruct_calls.
  all: eexists; split; [rewrite <- ?app_assoc; cbn; reflexivity|].
  all: split; [reflexivity|].
  all: intros Hne;
       try (apply Z.eqb_neq in Hne; rewrite Hne in Hrc; discriminate).
  all: unfold printenv_warning; set_solver.
Qed.

(** ** The version string *)

Lemma drop_version_flag_leading_key (v : string) :
  drop_version_flag ("bootfirmware_version=" +:+ v) = v.
Proof. reflexivity. Qed.

Lemma drop_version_flag_absent (content : string) :
  StdString.find content version_flag = None ->
  drop_version_flag content = content.
Proof. unfold drop_version_flag. intros ->. reflexivity. Qed.

Lemma drop_version_flag_found (content : string) (i : nat) :
  StdString.find content version_flag = Some i ->
  drop_version_flag content =
  StdString.take i content +:+ StdString.drop (i + 21) content.
Proof. unfold drop_version_flag. intros ->. reflexivity. Qed.

(** ** Reboot detection *)

Lemma rebootDetected_run b w :
  reboot_detect_supported_ b = true ->
  rebootDetected b w =
    (Returned (need_reboot_stored w && negb (sentinel_exists b w)),
     mkWorld (fs w) (need_reboot_stored w)
             (trace w ++ [EvExists (reboot_sentinel_ b); EvLoadNeedReboot])).
Proof.
  intros Hs. unfold rebootDetected, sentinel_exists. rewrite Hs.
  unfold_calls. rewrite <- app_assoc. reflexivity.
Qed.

Lemma rebootDetected_unsupported b w :
  reboot_detect_supported_ b = false ->
  rebootDetected b w = (Returned false, w).
Proof. intros Hs. unfold rebootDetected. rewrite Hs. reflexivity. Qed.

Lemma rebootFlagSet_run b w :
  reboot_detect_supported_ b = true ->
  rebootFlagSet b w =
    (Returned tt,
     mkWorld (<[reboot_sentinel_ b := EmptyString]> (fs w)) true
             (trace w ++ [EvWriteFile (reboot_sentinel_ b) EmptyString;
                          EvStoreNeedReboot])).
Proof.
  intros Hs. unfold rebootFlagSet, rebootFlagSet_body. rewrite Hs.
  cbn [negb block]. unfold_calls. rewrite <- app_assoc. reflexivity.
Qed.

Lemma rebootFlagClear_run b w :
  reboot_detect_supported_ b = true ->
  rebootFlagClear b w =
    (Returned tt,
     mkWorld (delete (reboot_sentinel_ b) (fs w)) false
             (trace w ++ [EvClearNeedReboot; EvRemove (reboot_sentinel_ b)])).
Proof.
  intros Hs. unfold rebootFlagClear, rebootFlagClear_body. rewrite Hs.
  cbn [negb block]. unfold_calls. rewrite <- app_assoc. reflexivity.
Qed.

Lemma crash_in_rebootFlagSet b w :
  crash_after 1 (rebootFlagSet_body b) w =
  mkWorld (<[reboot_sentinel_ b := EmptyString]> (fs w)) (need_reboot_stored w)
          (trace w ++ [EvWriteFile (reboot_sentinel_ b) EmptyString]).
Proof. reflexivity. Qed.

Lemma crash_in_rebootFlagClear b w :
  crash_after 1 (rebootFlagClear_body b) w =
  mkWorld (fs w) false (trace w ++ [EvClearNeedReboot]).
Proof. reflexivity. Qed.

Lemma fake_reboot_run env b w :
  reboot env b true w =
    (Returned tt,
     mkWorld (delete (reboot_sentinel_ b) (fs w)) (need_reboot_stored w)
             (trace w ++ [EvRemove (reboot_sentinel_ b)])).
Proof. reflexivity. Qed.

Lemma sentinel_exists_insert b f n t c :
  sentinel_exists b (mkWorld (<[reboot_sentinel_ b := c]> f) n t) = true.
Proof.
  unfold sentinel_exists. cbn. rewrite lookup_insert_eq. reflexivity.
Qed.

Lemma sentinel_exists_delete b f n t :
  sentinel_exists b (mkWorld (delete (reboot_sentinel_ b) f) n t) = false.
Proof.
  unfold sentinel_exists. cbn. rewrite lookup_delete_eq. reflexivity.
Qed.

Lemma bind_returned {A B} (m : M A) (f : A -> M B) (w w' : World) (a : A) :
  m w = (Returned a, w') -> (m ≫= f) w = f a w'.
Proof. intros H. unfold mbind, M_bind. rewrite H. reflexivity. Qed.

Lemma roundtrip_run env b w :
  reboot_detect_supported_ b = true ->
  exists w',
    roundtrip env b w = (Returned (false, true, false), w') /\
    need_reboot_stored w' = false /\
    sentinel_exists b w' = false.
Proof.
  intros Hs. unfold roundtrip.
  erewrite bind_returned by (apply rebootFlagSet_run; exact Hs).
  erewrite bind_returned by (apply rebootDetected_run; exact Hs).
  rewrite sentinel_exists_insert. cbn [need_reboot_stored fs trace andb negb].
  erewrite bind_returned by apply fake_reboot_run.
  erewrite bind_returned by (apply rebootDetected_run; exact Hs).
  rewrite sentinel_exists_delete. cbn [need_reboot_stored fs trace andb negb].
  erewrite bind_returned by (apply rebootFlagClear_run; exact Hs).
  erewrite bind_returned by (apply rebootDetected_run; exact Hs).
  rewrite sentinel_exists_delete. cbn [need_reboot_stored fs trace andb negb].
  eexists. split; [reflexivity|]. split; [reflexivity|].
  apply sentinel_exists_delete.
Qed.

Lemma installNotify_outcome env b target w :
  outcome (installNotify env b target) w =
  if recognized (rollback_mode (config_ b)) then Returned tt
  else Thrown NotImplementedException.
Proof.
  destruct (firmware_backend (rollback_mode (config_ b))) eqn:Hf.
  - destruct (installNotify_run env b target w Hf) as (evs & Hrun & _).
    unfold outcome. rewrite Hrun.
    destruct (rollback_mode (config_ b)); try discriminate Hf; reflexivity.
  - unfold installNotify.
    destruct (rollback_mode (config_ b)); try discriminate Hf; reflexivity.
Qed.

Lemma count_shell_of_commands (cmd : string) (evs : list Event) (cmds : list string) :
  shell_commands evs = cmds ->
  count_shell cmd evs = length (filter (fun c => c = cmd) cmds).
Proof. intros <-. reflexivity. Qed.

Lemma installNotify_count env b target w :
  firmware_backend (rollback_mode (config_ b)) = true ->
  count_shell (bootupgrade_command (rollback_mode (config_ b)))
              (issued (installNotify env b target) w)
  = if StdString.differs
         (snd (printenv_answer env b target w))
         (drop_version_flag (file_content w (version_file_of (sha256Hash target))))
    then 1 else 0.
Proof.
  intros Hf.
  destruct (installNotify_run env b target w Hf) as (evs & Hrun & Hcmds & _).
  rewrite (issued_run _ _ _ _ _ _ Hrun).
  rewrite (count_shell_of_commands _ _ _ Hcmds).
  destruct (rollback_mode (config_ b)); try discriminate Hf;
    destruct (StdString.differs _ _); reflexivity.
Qed.

Lemma Bootloader_new_run env config w :
  let created := createSecureDirectory env (trace w) (reboot_sentinel_dir config) in
  exists w',
    Bootloader_new env config w =
      (Returned (mkBootloader config
                   (path_append env (reboot_sentinel_dir config)
                                (reboot_sentinel_name config))
                   (reboot_command config) created), w') /\
    fs w' = fs w /\ need_reboot_stored w' = need_reboot_stored w.
Proof.
  cbn zeta. unfold Bootloader_new. unfold_calls.
  destruct (createSecureDirectory env (trace w) (reboot_sentinel_dir config));
    cbn; eexists; (split; [reflexivity | split; reflexivity]).
Qed.

Lemma real_reboot_run env b w :
  reboot env b false w =
    (Returned tt,
     mkWorld (fs w) (need_reboot_stored w)
       (trace w ++
        if (setuid env (trace w) 0 =? 0)%Z then
          [EvSetuid 0%Z; EvSync; EvSystem (reboot_command_ b)] ++
          (if (system env (trace w ++ [EvSetuid 0%Z; EvSync]) (reboot_command_ b)
               =? 0)%Z
           then []
           else [EvLog LError ["Failed to execute the reboot command: ";
                               reboot_command_ b]])
        else
          [EvSetuid 0%Z;
           EvLog LError
             ["Failed to set/verify a root user so cannot reboot system programmatically"]])).
Proof.
  unfold reboot. unfold_calls.
  destruct (setuid env (trace w) 0 =? 0)%Z; cbn.
  - rewrite <- !app_assoc. cbn.
    destruct (system env _ _ =? 0)%Z; cbn; rewrite <- ?app_assoc; reflexivity.
  - rewrite <- !app_assoc. reflexivity.
Qed.

(** ** The model at concrete inputs *)

Example sample_bootloader_constructed :
  outcome (Bootloader_new (platform_answering 0 "" 0 0) (sample_config kFioVB))
          (world_empty false)
  = Returned (sample_bootloader kFioVB true).
Proof. reflexivity. Qed.

Example insecure_dir_disables_detection :
  Bootloader_new platform_insecure_dir (sample_config kFioVB) (world_empty false)
  = (Returned (sample_bootloader kFioVB false),
     mkWorld ∅ false
       [EvCreateSecureDirectory "/var/run/aktualizr-session";
        EvLog LWarning ["Could not create "; "/var/run/aktualizr-session";
                        " securely, reboot detection support disabled"]]).
Proof. reflexivity. Qed.

Example drop_version_flag_newline :
  drop_version_flag "bootfirmware_version=2.1
" = "2.1
".
Proof. reflexivity. Qed.

Example drop_version_flag_other_separator :
  drop_version_flag "bootfirmware_version 2.1" = "2.1".
Proof. reflexivity. Qed.

Example drop_version_flag_in_the_middle :
  drop_version_flag "fw bootfirmware_version=2.1" = "fw 2.1"
  /\ strip_leading_key "fw bootfirmware_version=2.1" = "fw bootfirmware_version=2.1".
Proof. split; reflexivity. Qed.

(** A failing printenv that prints nothing: the comparison still takes
    place and the marker is set. *)
Example printenv_failure_still_compares :
  shell_commands
    (issued (installNotify (platform_answering 1 "" 0 0)
                           (sample_bootloader kUbootMasked true) sample_target)
            (world_with sample_version_file "bootfirmware_version=2.1" false))
  = ["fw_printenv bootfirmware_version"; "fw_setenv bootupgrade_available 1"].
Proof. reflexivity. Qed.

Example setBootOK_masked_trace :
  issued (setBootOK (platform_answering 1 "" 0 0) (sample_bootloader kUbootMasked true))
         (world_empty false)
  = [EvShell "fw_setenv bootcount 0";
     EvLog LWarning ["Failed resetting bootcount"];
     EvShell "fw_setenv upgrade_available 0";
     EvLog LWarning ["Failed resetting upgrade_available for u-boot"]].
Proof. reflexivity. Qed.

(** * The claims *)

(** ** C1: crash safety of the sentinel / flag protocol *)

(** The order is what makes the protocol safe.  Were the two statements
    of [rebootFlagSet] swapped, a fault between them in a clean state
    would leave the flag true without a sentinel, and a reboot would be
    reported that no update asked for; were those of [rebootFlagClear]
    swapped, a fault between them would report the reboot of an update
    that is pending but has not rebooted. *)
Lemma swapped_order_unsafe (b : Bootloader) (w : World) :
  reboot_detect_supported_ b = true ->
  (need_reboot_stored w = false -> sentinel_exists b w = false ->
   outcome (rebootDetected b) w = Returned false /\
   outcome (rebootDetected b) (crash_after 1 (rev (rebootFlagSet_body b)) w)
     = Returned true) /\
  (need_reboot_stored w = true -> sentinel_exists b w = true ->
   outcome (rebootDetected b) w = Returned false /\
   outcome (rebootDetected b) (crash_after 1 (rev (rebootFlagClear_body b)) w)
     = Returned true).
Proof.
  intros Hs. unfold outcome. split; intros Hflag Hfile.
  - rewrite !rebootDetected_run by exact Hs. cbn [fst].
    rewrite Hflag. split; [reflexivity|].
    change (sentinel_exists b (crash_after 1 (rev (rebootFlagSet_body b)) w))
      with (sentinel_exists b w).
    rewrite Hfile. reflexivity.
  - rewrite !rebootDetected_run by exact Hs. cbn [fst].
    rewrite Hflag, Hfile. split; [reflexivity|].
    change (crash_after 1 (rev (rebootFlagClear_body b)) w)
      with (mkWorld (delete (reboot_sentinel_ b) (fs w)) (need_reboot_stored w)
                    (trace w ++ [EvRemove (reboot_sentinel_ b)])).
    rewrite sentinel_exists_delete. cbn [need_reboot_stored]. rewrite Hflag.
    reflexivity.
Qed.

(** Once the sentinel is removed, [rebootDetected] answers with the
    stored flag. *)
Lemma rebootDetected_after_removal (b : Bootloader) (w : World) :
  reboot_detect_supported_ b = true ->
  outcome (rebootDetected b) (exec (fs_remove (reboot_sentinel_ b)) w)
  = Returned (need_reboot_stored w).
Proof.
  intros Hs. unfold outcome, exec, fs_remove. cbn [snd].
  rewrite rebootDetected_run by exact Hs.
  rewrite sentinel_exists_delete. cbn [fst need_reboot_stored negb].
  rewrite andb_true_r. reflexivity.
Qed.

(** C1.  With detection supported, [rebootFlagSet] writes the sentinel
    and then stores the flag, and [rebootFlagClear] clears the flag and
    then removes the sentinel.  A fault between the two writes of either
    leaves a state in which [rebootDetected] answers what it answers
    after the completed call: false.  So it never reports a reboot when
    no update was pending.  Nor is the negative answer a missed reboot:
    in the interrupted [rebootFlagSet] the sentinel exists and the flag is
    the one found, in the interrupted [rebootFlagClear] the flag is false;
    and once the sentinel is removed (the boundary crossed) the
    interrupted [rebootFlagSet] answers with the flag it found, true
    exactly when an update was pending, as if the call had not started,
    and the interrupted [rebootFlagClear] answers false, as the completed
    call does. *)
Theorem crash_between_writes (b : Bootloader) (w : World) :
  reboot_detect_supported_ b = true ->
  let in_set := crash_after 1 (rebootFlagSet_body b) w in
  let in_clear := crash_after 1 (rebootFlagClear_body b) w in
  let crossed (c : World) := exec (fs_remove (reboot_sentinel_ b)) c in
  issued (rebootFlagSet b) w =
    [EvWriteFile (reboot_sentinel_ b) EmptyString; EvStoreNeedReboot] /\
  issued (rebootFlagClear b) w =
    [EvClearNeedReboot; EvRemove (reboot_sentinel_ b)] /\
  trace in_set = trace w ++ [EvWriteFile (reboot_sentinel_ b) EmptyString] /\
  trace in_clear = trace w ++ [EvClearNeedReboot] /\
  outcome (rebootDetected b) in_set = Returned false /\
  outcome (rebootDetected b) in_clear = Returned false /\
  sentinel_exists b in_set = true /\
  need_reboot_stored in_set = need_reboot_stored w /\
  need_reboot_stored in_clear = false /\
  outcome (rebootDetected b) in_set
    = outcome (rebootDetected b) (exec (rebootFlagSet b) w) /\
  outcome (rebootDetected b) in_clear
    = outcome (rebootDetected b) (exec (rebootFlagClear b) w) /\
  outcome (rebootDetected b) (crossed in_set) = Returned (need_reboot_stored w) /\
  outcome (rebootDetected b) (crossed in_set)
    = outcome (rebootDetected b) (crossed w) /\
  outcome (rebootDetected b) (crossed in_clear) = Returned false /\
  outcome (rebootDetected b) (crossed in_clear)
    = outcome (rebootDetected b) (crossed (exec (rebootFlagClear b) w)).
Proof.
  intros Hs. cbn zeta.
  rewrite !rebootDetected_after_removal by exact Hs.
  rewrite crash_in_rebootFlagSet, crash_in_rebootFlagClear.
  unfold exec. rewrite rebootFlagSet_run, rebootFlagClear_run by exact Hs.
  unfold outcome. rewrite !rebootDetected_run by exact Hs.
  rewrite !sentinel_exists_insert.
  cbn [fst snd fs need_reboot_stored trace negb andb].
  rewrite ?sentinel_exists_insert, ?andb_false_r.
  cbn [negb].
  repeat split.
  - eapply issued_run. apply rebootFlagSet_run. exact Hs.
  - eapply issued_run. apply rebootFlagClear_run. exact Hs.
Qed.

Lemma crash_between_writes_witness :
  reboot_detect_supported_ (sample_bootloader kUbootMasked true) = true /\
  outcome (rebootDetected (sample_bootloader kUbootMasked true))
          (crash_after 1 (rebootFlagSet_body (sample_bootloader kUbootMasked true))
                       (world_empty false)) = Returned false.
Proof.
  split; [reflexivity|].
  apply (crash_between_writes (sample_bootloader kUbootMasked true)
           (world_empty false) eq_refl).
Defined.

(** ** C2: what [rebootDetected] returns, and the round trip *)

(** C2, as worded, fails for a state in which detection is unsupported:
    after the sentinel is removed [rebootDetected] still returns false,
    and the flag set beforehand is still true at the end. *)
Lemma roundtrip_counterexample :
  ~ roundtrip_as_worded (platform_answering 0 "" 0 0)
      (sample_bootloader kUbootMasked false) (world_empty true).
Proof.
  intros [H _]. vm_compute in H. discriminate H.
Qed.

(** C2, amended.  [rebootDetected] returns true exactly when detection is
    supported, the stored flag is true and the sentinel file is absent.
    When detection is supported, from every state of the flag and the
    sentinel: right after [rebootFlagSet] it returns false, after the
    sentinel alone is removed it returns true, and after
    [rebootFlagClear] it returns false and the stored flag is false. *)
Theorem rebootDetected_roundtrip (env : Platform) (b : Bootloader) (w : World) :
  outcome (rebootDetected b) w =
    Returned (reboot_detect_supported_ b && need_reboot_stored w
              && negb (sentinel_exists b w)) /\
  (reboot_detect_supported_ b = true ->
   outcome (roundtrip env b) w = Returned (false, true, false) /\
   need_reboot_stored (exec (roundtrip env b) w) = false).
Proof.
  split.
  - unfold outcome. destruct (reboot_detect_supported_ b) eqn:Hs.
    + rewrite rebootDetected_run by exact Hs. reflexivity.
    + rewrite rebootDetected_unsupported by exact Hs. reflexivity.
  - intros Hs. destruct (roundtrip_run env b w Hs) as (w' & Hrun & Hflag & _).
    unfold outcome, exec. rewrite Hrun. split; [reflexivity | exact Hflag].
Qed.

Lemma rebootDetected_roundtrip_witness :
  reboot_detect_supported_ (sample_bootloader kUbootGeneric true) = true /\
  outcome (roundtrip (platform_answering 0 "" 0 0)
                     (sample_bootloader kUbootGeneric true))
          (world_empty false) = Returned (false, true, false).
Proof.
  split; [reflexivity|].
  apply (rebootDetected_roundtrip (platform_answering 0 "" 0 0)
           (sample_bootloader kUbootGeneric true) (world_empty false)).
  reflexivity.
Defined.

(** ** C3: which lifecycle operations fail *)

(** C3.  Whatever the executor answers, [setBootOK] and [updateNotify]
    return normally for the four recognized rollback modes; for an
    unrecognized mode [setBootOK], [updateNotify] and [installNotify]
    all throw [NotImplementedException]. *)
Theorem lifecycle_outcomes (env : Platform) (b : Bootloader) (target : Target)
    (w : World) :
  let expected : Outcome unit :=
    if recognized (rollback_mode (config_ b)) then Returned tt
    else Thrown NotImplementedException in
  outcome (setBootOK env b) w = expected /\
  outcome (updateNotify env b) w = expected /\
  outcome (installNotify env b target) w = expected.
Proof.
  cbn zeta. unfold outcome at 1 2.
  destruct (setBootOK_run env b w) as (e1 & -> & _).
  destruct (updateNotify_run env b w) as (e2 & -> & _).
  repeat split. apply installNotify_outcome.
Qed.

(** The complete trace of [installNotify] for the two firmware
    backends. *)
Lemma installNotify_events_run env b target w :
  firmware_backend (rollback_mode (config_ b)) = true ->
  installNotify env b target w =
    (Returned tt,
     mkWorld (fs w) (need_reboot_stored w)
             (trace w ++ installNotify_events env b target w)).
Proof.
  intros Hm.
  unfold installNotify_events, bootupgrade_answer, trace_at_bootupgrade,
    printenv_answer, trace_at_printenv, installNotify_preamble, file_content,
    installNotify.
  destruct (rollback_mode (config_ b)); try discriminate Hm; clear Hm.
  all: unfold_calls; rewrite <- ?app_assoc; cbn.
  all: destruct (shell env _ _ _) as [rc current]; cbn.
  all: destruct (negb (rc =? 0)%Z); cbn;
       destruct (StdString.differs current _); cbn;
       rewrite <- ?app_assoc; cbn; try reflexivity.
  all: destruct (shell env _ _ _) as [rc2 out2]; cbn.
  all: destruct (negb (rc2 =? 0)%Z); cbn; rewrite <- ?app_assoc; reflexivity.
Qed.

(** ** C4: a missing version file, a failing executor *)

(** C4, as worded, fails: with no version file on disk and an executor
    that reports the current version 2.0, the masked U-Boot backend
    compares 2.0 against the empty string and issues
    "fw_setenv bootupgrade_available 1". *)
Lemma missing_version_file_counterexample :
  ~ missing_file_as_worded (platform_answering 0 "2.0" 0 0)
      (sample_bootloader kUbootMasked true) sample_target (world_empty false).
Proof.
  intros H. destruct (H eq_refl) as [_ Hcount].
  vm_compute in Hcount. discriminate Hcount.
Qed.

(** C4, amended.  For the masked U-Boot and FioVB backends
    [installNotify] returns normally whatever is on disk and whatever the
    executor answers, and leaves the files and the stored flag alone.  A
    failure of the printenv command, and a failure of the command that
    sets the marker, are each logged as a warning, and nothing else is;
    after a failing printenv the comparison goes on with the content of
    [sink].  A missing version file is read as the empty string: the
    "set bootupgrade_available 1" command is issued once if [sink] is not
    empty after the printenv call, and not at all if it is empty. *)
Theorem installNotify_degraded (env : Platform) (b : Bootloader)
    (target : Target) (w : World) :
  firmware_backend (rollback_mode (config_ b)) = true ->
  let mode := rollback_mode (config_ b) in
  let set_command := bootupgrade_command mode in
  let rc := fst (printenv_answer env b target w) in
  let current := snd (printenv_answer env b target w) in
  let target_ver :=
    drop_version_flag (file_content w (version_file_of (sha256Hash target))) in
  let set_rc := fst (bootupgrade_answer env b target w) in
  outcome (installNotify env b target) w = Returned tt /\
  fs (exec (installNotify env b target) w) = fs w /\
  need_reboot_stored (exec (installNotify env b target) w) = need_reboot_stored w /\
  (rc <> 0%Z -> printenv_warning ∈ issued (installNotify env b target) w) /\
  (fs w !! version_file_of (sha256Hash target) = None ->
   count_shell set_command (issued (installNotify env b target) w)
   = if StdString.differs current EmptyString then 1 else 0) /\
  issued (installNotify env b target) w = installNotify_events env b target w /\
  (StdString.differs current target_ver = true -> set_rc <> 0%Z ->
   bootupgrade_warning mode ∈ issued (installNotify env b target) w) /\
  count_warnings (issued (installNotify env b target) w)
  = (if negb (rc =? 0)%Z then 1 else 0)
    + (if StdString.differs current target_ver && negb (set_rc =? 0)%Z
       then 1 else 0).
Proof.
  intros Hf. cbn zeta.
  destruct (installNotify_run env b target w Hf) as (evs & Hrun & Hcmds & Hwarn).
  pose proof (installNotify_events_run env b target w Hf) as Hall.
  rewrite (issued_run _ _ _ _ _ _ Hall).
  unfold outcome, exec. rewrite Hall. cbn [fst snd fs need_reboot_stored].
  split; [reflexivity|]. split; [reflexivity|]. split; [reflexivity|].
  split; [|split; [|split; [reflexivity|split]]].
  - intros Hrc. rewrite <- (issued_run _ _ _ _ _ _ Hall).
    rewrite (issued_run _ _ _ _ _ _ Hrun). apply Hwarn, Hrc.
  - intros Hmissing. rewrite <- (issued_run _ _ _ _ _ _ Hall).
    rewrite installNotify_count by exact Hf.
    unfold file_content. rewrite Hmissing. reflexivity.
  - intros Hd Hrc. apply Z.eqb_neq in Hrc.
    unfold installNotify_events. cbn zeta. rewrite Hd, Hrc. cbn [negb].
    destruct (negb _); set_solver.
  - unfold installNotify_events, installNotify_preamble. cbn zeta.
    destruct (negb (fst (printenv_answer env b target w) =? 0)%Z);
      destruct (StdString.differs _ _);
      destruct (negb (fst (bootupgrade_answer env b target w) =? 0)%Z);
      destruct (rollback_mode (config_ b)); try discriminate Hf;
      reflexivity.
Qed.

Lemma installNotify_degraded_witness :
  firmware_backend (rollback_mode (config_ (sample_bootloader kFioVB true))) = true /\
  count_shell "fiovb_setenv bootupgrade_available 1"
    (issued (installNotify (platform_answering 1 "" 0 0)
                           (sample_bootloader kFioVB true) sample_target)
            (world_empty false)) = 0 /\
  printenv_warning ∈
    issued (installNotify (platform_answering 1 "" 0 0)
                          (sample_bootloader kFioVB true) sample_target)
           (world_empty false) /\
  bootupgrade_warning kFioVB ∈
    issued (installNotify (platform_answering 1 "2.0" 0 0)
                          (sample_bootloader kFioVB true) sample_target)
           (world_empty false).
Proof.
  split; [reflexivity|].
  destruct (installNotify_degraded (platform_answering 1 "" 0 0)
              (sample_bootloader kFioVB true) sample_target (world_empty false)
              eq_refl) as (_ & _ & _ & Hwarn & Hcount & _).
  destruct (installNotify_degraded (platform_answering 1 "2.0" 0 0)
              (sample_bootloader kFioVB true) sample_target (world_empty false)
              eq_refl) as (_ & _ & _ & _ & _ & _ & Hset & _).
  split; [|split].
  - exact (Hcount eq_refl).
  - apply Hwarn. discriminate.
  - apply Hset; [reflexivity | discriminate].
Defined.

(** ** C5: the firmware version check *)

(** C5, as worded, fails: [installNotify] does not strip a leading key
    only.  With "fw bootfirmware_version=2.1" in the version file and
    "fw 2.1" reported by the executor, the worded rule compares the whole
    content against the report and calls for one command; the code
    removes the key from the middle, finds the two strings equal and
    issues none. *)
Lemma leading_key_counterexample :
  ~ version_check_as_worded (platform_answering 0 "fw 2.1" 0 0)
      (sample_bootloader kUbootMasked true) sample_target
      (world_with sample_version_file "fw bootfirmware_version=2.1" false).
Proof.
  intros H. vm_compute in H. discriminate H.
Qed.

(** C5, amended.  For the masked U-Boot and FioVB backends
    [installNotify] reads the version file, removes from its content the
    first occurrence of "bootfirmware_version" together with the one
    character that follows it, wherever it occurs (a leading
    "bootfirmware_version=" is stripped; content without the flag is
    taken whole), reads [sink] from the printenv command, and issues the
    "set bootupgrade_available 1" command exactly once if the two strings
    differ and not at all if they are equal. *)
Theorem installNotify_version_check (env : Platform) (b : Bootloader)
    (target : Target) (w : World) :
  firmware_backend (rollback_mode (config_ b)) = true ->
  let mode := rollback_mode (config_ b) in
  let content := file_content w (version_file_of (sha256Hash target)) in
  let target_ver := drop_version_flag content in
  let current := snd (printenv_answer env b target w) in
  shell_commands (issued (installNotify env b target) w) =
    printenv_command mode ::
      (if StdString.differs current target_ver then [bootupgrade_command mode]
       else []) /\
  count_shell (bootupgrade_command mode) (issued (installNotify env b target) w)
    = (if StdString.differs current target_ver then 1 else 0) /\
  (forall v, content = "bootfirmware_version=" +:+ v -> target_ver = v) /\
  (StdString.find content version_flag = None -> target_ver = content) /\
  (forall i, StdString.find content version_flag = Some i ->
     target_ver = StdString.take i content +:+ StdString.drop (i + 21) content).
Proof.
  intros Hf. cbn zeta.
  destruct (installNotify_run env b target w Hf) as (evs & Hrun & Hcmds & _).
  split; [rewrite (issued_run _ _ _ _ _ _ Hrun); exact Hcmds|].
  split; [apply installNotify_count; exact Hf|].
  split; [intros v ->; apply drop_version_flag_leading_key|].
  split; [apply drop_version_flag_absent | apply drop_version_flag_found].
Qed.

Lemma installNotify_version_check_witness :
  firmware_backend (rollback_mode (config_ (sample_bootloader kUbootMasked true))) = true /\
  count_shell "fw_setenv bootupgrade_available 1"
    (issued (installNotify (platform_answering 0 "2.0" 0 0)
                           (sample_bootloader kUbootMasked true) sample_target)
            (world_with sample_version_file "bootfirmware_version=2.1" false)) = 1 /\
  count_shell "fw_setenv bootupgrade_available 1"
    (issued (installNotify (platform_answering 0 "2.1" 0 0)
                           (sample_bootloader kUbootMasked true) sample_target)
            (world_with sample_version_file "bootfirmware_version=2.1" false)) = 0.
Proof.
  split; [reflexivity|]. split.
  - exact (proj1 (proj2 (installNotify_version_check
             (platform_answering 0 "2.0" 0 0)
             (sample_bootloader kUbootMasked true) sample_target
             (world_with sample_version_file "bootfirmware_version=2.1" false)
             eq_refl))).
  - exact (proj1 (proj2 (installNotify_version_check
             (platform_answering 0 "2.1" 0 0)
             (sample_bootloader kUbootMasked true) sample_target
             (world_with sample_version_file "bootfirmware_version=2.1" false)
             eq_refl))).
Defined.

(** ** C6: detection unsupported *)

(** C6.  When the capability flag is false, [rebootFlagSet] and
    [rebootFlagClear] return with the world as it was: files, stored
    flag and trace (no storage call, no filesystem write), and
    [rebootDetected] returns false, also without touching anything. *)
Theorem unsupported_detection_noop (b : Bootloader) (w : World) :
  reboot_detect_supported_ b = false ->
  rebootFlagSet b w = (Returned tt, w) /\
  rebootFlagClear b w = (Returned tt, w) /\
  rebootDetected b w = (Returned false, w).
Proof.
  intros Hs. unfold rebootFlagSet, rebootFlagClear, rebootDetected.
  rewrite Hs. repeat split.
Qed.

Lemma unsupported_detection_noop_witness :
  reboot_detect_supported_ (sample_bootloader kUbootMasked false) = false /\
  rebootDetected (sample_bootloader kUbootMasked false) (world_empty true)
    = (Returned false, world_empty true).
Proof.
  split; [reflexivity|].
  apply (unsupported_detection_noop (sample_bootloader kUbootMasked false)
           (world_empty true) eq_refl).
Defined.

(** ** C7: the commands per backend *)

(** C7.  The commands [setBootOK] and [updateNotify] give to the
    executor are, in order, those of the decision table: none for
    [kBootloaderNone]; bootcount reset for the generic U-Boot backend;
    bootcount reset and upgrade_available (cleared by [setBootOK], set by
    [updateNotify]) for the masked U-Boot backend and, through the fiovb
    tools, for FioVB; [updateNotify] ends with the rollback reset for the
    three backends. *)
Theorem dispatch_decision_table (env : Platform) (b : Bootloader) (w : World) :
  shell_commands (issued (setBootOK env b) w)
    = acknowledgeBootOk_table (rollback_mode (config_ b)) /\
  shell_commands (issued (updateNotify env b) w)
    = notifyUpdateApplied_table (rollback_mode (config_ b)) /\
  trace (exec (setBootOK env b) w) = trace w ++ issued (setBootOK env b) w /\
  trace (exec (updateNotify env b) w) = trace w ++ issued (updateNotify env b) w.
Proof.
  destruct (setBootOK_run env b w) as (e1 & H1 & C1).
  destruct (updateNotify_run env b w) as (e2 & H2 & C2).
  rewrite (issued_run _ _ _ _ _ _ H1), (issued_run _ _ _ _ _ _ H2).
  unfold exec. rewrite H1, H2. repeat split; assumption.
Qed.

(** ** C8: the simulated reboot *)

(** C8.  [reboot(true)] returns normally; afterwards the sentinel file
    does not exist, the other files and the stored flag are as before,
    and the only external call made is the removal of the sentinel: no
    command is run. *)
Theorem fake_reboot_effect (env : Platform) (b : Bootloader) (w : World) :
  let w' := exec (reboot env b true) w in
  outcome (reboot env b true) w = Returned tt /\
  sentinel_exists b w' = false /\
  fs w' = delete (reboot_sentinel_ b) (fs w) /\
  need_reboot_stored w' = need_reboot_stored w /\
  issued (reboot env b true) w = [EvRemove (reboot_sentinel_ b)].
Proof.
  cbn zeta. unfold outcome, exec. rewrite fake_reboot_run.
  cbn [fst snd fs need_reboot_stored].
  split; [reflexivity|]. split; [apply sentinel_exists_delete|].
  split; [reflexivity|]. split; [reflexivity|].
  eapply issued_run. apply fake_reboot_run.
Qed.

(** ** C9: the real reboot *)

(** C9.  [reboot(false)] always returns normally and leaves the files
    and the stored flag alone.  If [setuid(0)] fails, the failure is
    logged and nothing else happens: no [sync], no command.  If it
    succeeds, [sync] is called, then [system] with the reboot command of
    the object; a non-zero status of that command is logged. *)
Theorem real_reboot (env : Platform) (b : Bootloader) (w : World) :
  let setuid_rc := setuid env (trace w) 0%Z in
  let reboot_rc :=
    system env (trace w ++ [EvSetuid 0%Z; EvSync]) (reboot_command_ b) in
  outcome (reboot env b false) w = Returned tt /\
  fs (exec (reboot env b false) w) = fs w /\
  need_reboot_stored (exec (reboot env b false) w) = need_reboot_stored w /\
  (setuid_rc <> 0%Z ->
   issued (reboot env b false) w =
     [EvSetuid 0%Z; EvLog LError setuid_failed_message]) /\
  (setuid_rc = 0%Z -> reboot_rc = 0%Z ->
   issued (reboot env b false) w =
     [EvSetuid 0%Z; EvSync; EvSystem (reboot_command_ b)]) /\
  (setuid_rc = 0%Z -> reboot_rc <> 0%Z ->
   issued (reboot env b false) w =
     [EvSetuid 0%Z; EvSync; EvSystem (reboot_command_ b);
      EvLog LError ["Failed to execute the reboot command: "; reboot_command_ b]]).
Proof.
  cbn zeta. pose proof (real_reboot_run env b w) as Hrun.
  unfold outcome, exec. rewrite (issued_run _ _ _ _ _ _ Hrun), Hrun.
  cbn [fst snd fs need_reboot_stored].
  split; [reflexivity|]. split; [reflexivity|]. split; [reflexivity|].
  split; [|split].
  - intros Hu. apply Z.eqb_neq in Hu. rewrite Hu. reflexivity.
  - intros Hu Hr. rewrite Hu, Hr. reflexivity.
  - intros Hu Hr. apply Z.eqb_neq in Hr. rewrite Hu, Hr. reflexivity.
Qed.

Lemma real_reboot_witness :
  issued (reboot (platform_answering 0 "" 1 0) (sample_bootloader kUbootMasked true) false)
         (world_empty true)
    = [EvSetuid 0%Z; EvLog LError setuid_failed_message] /\
  issued (reboot (platform_answering 0 "" 0 0) (sample_bootloader kUbootMasked true) false)
         (world_empty true)
    = [EvSetuid 0%Z; EvSync; EvSystem "/sbin/reboot"] /\
  issued (reboot (platform_answering 0 "" 0 1) (sample_bootloader kUbootMasked true) false)
         (world_empty true)
    = [EvSetuid 0%Z; EvSync; EvSystem "/sbin/reboot";
       EvLog LError ["Failed to execute the reboot command: "; "/sbin/reboot"]].
Proof.
  split; [|split].
  - apply (real_reboot (platform_answering 0 "" 1 0)
             (sample_bootloader kUbootMasked true) (world_empty true)).
    discriminate.
  - apply (real_reboot (platform_answering 0 "" 0 0)
             (sample_bootloader kUbootMasked true) (world_empty true));
      reflexivity.
  - apply (real_reboot (platform_answering 0 "" 0 1)
             (sample_bootloader kUbootMasked true) (world_empty true));
      [reflexivity | discriminate].
Defined.

(** ** C10: the simulated reboot does not look at the capability flag *)

(** C10.  With the capability flag false, [reboot(true)] still removes
    the sentinel file, while [rebootFlagSet], [rebootFlagClear] and
    [rebootDetected] return at their guard without touching anything. *)
Theorem fake_reboot_ignores_capability (env : Platform) (b : Bootloader)
    (w : World) :
  reboot_detect_supported_ b = false ->
  sentinel_exists b (exec (reboot env b true) w) = false /\
  issued (reboot env b true) w = [EvRemove (reboot_sentinel_ b)] /\
  exec (rebootFlagSet b) w = w /\
  exec (rebootFlagClear b) w = w /\
  exec (rebootDetected b) w = w.
Proof.
  intros Hs. unfold exec at 1. rewrite fake_reboot_run. cbn [snd].
  split; [apply sentinel_exists_delete|].
  split; [eapply issued_run; apply fake_reboot_run|].
  unfold exec, rebootFlagSet, rebootFlagClear, rebootDetected.
  rewrite Hs. repeat split.
Qed.

Lemma fake_reboot_ignores_capability_witness :
  reboot_detect_supported_ (sample_bootloader kUbootMasked false) = false /\
  sentinel_exists (sample_bootloader kUbootMasked false)
    (world_with "/var/run/aktualizr-session/need_reboot" "" true) = true /\
  sentinel_exists (sample_bootloader kUbootMasked false)
    (exec (reboot (platform_answering 0 "" 0 0)
                  (sample_bootloader kUbootMasked false) true)
          (world_with "/var/run/aktualizr-session/need_reboot" "" true)) = false.
Proof.
  split; [reflexivity|]. split; [reflexivity|].
  apply (fake_reboot_ignores_capability (platform_answering 0 "" 0 0)
           (sample_bootloader kUbootMasked false)
           (world_with "/var/run/aktualizr-session/need_reboot" "" true) eq_refl).
Defined.

(** * Further properties of the code *)

(** ** std::string helpers *)

Lemma StdString_append_cons (c : Ascii.ascii) (s t : string) :
  String c s +:+ t = String c (s +:+ t).
Proof. reflexivity. Qed.

Lemma StdString_take_drop (n : nat) (s : string) :
  StdString.take n s +:+ StdString.drop n s = s.
Proof.
  revert s. induction n as [|n IH]; intros [|c s]; simpl; try reflexivity.
  rewrite StdString_append_cons. f_equal. apply IH.
Qed.

Lemma StdString_drop_drop (n m : nat) (s : string) :
  StdString.drop n (StdString.drop m s) = StdString.drop (m + n) s.
Proof.
  revert s. induction m as [|m IH]; intros s; simpl; [reflexivity|].
  destruct s as [|c s]; [destruct n; reflexivity | apply IH].
Qed.

Lemma StdString_length_take (n : nat) (s : string) :
  String.length (StdString.take n s) = min n (String.length s).
Proof.
  revert s. induction n as [|n IH]; intros [|c s]; simpl; try reflexivity.
  rewrite IH. reflexivity.
Qed.

Lemma StdString_length_drop (n : nat) (s : string) :
  String.length (StdString.drop n s) = String.length s - n.
Proof.
  revert s. induction n as [|n IH]; intros [|c s]; simpl; try reflexivity.
  apply IH.
Qed.

Lemma StdString_length_append (s t : string) :
  String.length (s +:+ t) = String.length s + String.length t.
Proof.
  induction s as [|c s IH]; [reflexivity|].
  rewrite StdString_append_cons. simpl. rewrite IH. reflexivity.
Qed.

Lemma StdString_substring (m n : nat) (s : string) :
  String.substring m n s = StdString.take n (StdString.drop m s).
Proof.
  revert n s. induction m as [|m IH]; intros n s.
  - cbn [StdString.drop]. replace (match s with EmptyString => s | String _ _ => s end) with s
      by (destruct s; reflexivity).
    revert s. induction n as [|n IHn]; intros [|c s]; simpl; try reflexivity.
    rewrite IHn. reflexivity.
  - destruct s as [|c s]; simpl.
    + destruct n; reflexivity.
    + apply IH.
Qed.

(** Where [find] reports the flag, the flag is. *)
Lemma find_version_flag_at (content : string) (i : nat) :
  StdString.find content version_flag = Some i ->
  StdString.drop i content
  = version_flag +:+ StdString.drop (i + String.length version_flag) content.
Proof.
  intros Hfind. apply String.index_correct1 in Hfind.
  rewrite StdString_substring in Hfind.
  rewrite <- (StdString_take_drop (String.length version_flag)
                (StdString.drop i content)) at 1.
  rewrite Hfind, StdString_drop_drop. reflexivity.
Qed.

(** X1.  [drop_version_flag] either finds no flag and returns the
    content unchanged, or splits the content at the first occurrence of
    the flag and returns what precedes it followed by what follows it
    less one character (none if the flag ends the content). *)
Theorem drop_version_flag_shape (content : string) :
  (StdString.find content version_flag = None /\
   drop_version_flag content = content) \/
  (exists pre post,
     content = pre +:+ version_flag +:+ post /\
     StdString.find content version_flag = Some (String.length pre) /\
     drop_version_flag content = pre +:+ StdString.drop 1 post).
Proof.
  destruct (StdString.find content version_flag) as [i|] eqn:Hfind.
  - right. pose proof (find_version_flag_at content i Hfind) as Hat.
    exists (StdString.take i content),
           (StdString.drop (i + String.length version_flag) content).
    assert (Hlen : i <= String.length content).
    { apply (f_equal String.length) in Hat.
      rewrite StdString_length_append, StdString_length_drop in Hat.
      cbn in Hat. lia. }
    split; [|split].
    + rewrite <- Hat. symmetry. apply StdString_take_drop.
    + rewrite StdString_length_take. f_equal. lia.
    + unfold drop_version_flag. rewrite Hfind. unfold StdString.erase.
      rewrite StdString_drop_drop. f_equal. f_equal. lia.
  - left. split; [reflexivity | apply drop_version_flag_absent, Hfind].
Qed.

(** X2.  [drop_version_flag] never lengthens the content and removes at
    most 21 characters: the flag and one more. *)
Theorem drop_version_flag_length (content : string) :
  String.length (drop_version_flag content) <= String.length content /\
  String.length content - 21 <= String.length (drop_version_flag content).
Proof.
  unfold drop_version_flag.
  destruct (StdString.find content version_flag) as [i|]; [|lia].
  unfold StdString.erase.
  rewrite StdString_length_append, StdString_length_take, StdString_length_drop.
  cbn. lia.
Qed.

(** ** The dispatch operations and their log *)

Lemma installNotify_other_run env b target w :
  firmware_backend (rollback_mode (config_ b)) = false ->
  installNotify env b target w =
    (if recognized (rollback_mode (config_ b)) then Returned tt
     else Thrown NotImplementedException,
     mkWorld (fs w) (need_reboot_stored w)
             (trace w ++ installNotify_preamble target w)).
Proof.
  intros Hf. unfold installNotify, installNotify_preamble, file_content.
  destruct (rollback_mode (config_ b)); try discriminate Hf;
    unfold_calls; rewrite <- !app_assoc; reflexivity.
Qed.

(** X5.  For the backends without a firmware marker, and for an
    unrecognized mode, [installNotify] still opens the version file and
    logs the two lines, and gives no command to the executor. *)
Theorem installNotify_without_backend (env : Platform) (b : Bootloader)
    (target : Target) (w : World) :
  firmware_backend (rollback_mode (config_ b)) = false ->
  issued (installNotify env b target) w = installNotify_preamble target w /\
  shell_commands (issued (installNotify env b target) w) = [].
Proof.
  intros Hf.
  rewrite (issued_run _ _ _ _ _ _ (installNotify_other_run env b target w Hf)).
  split; reflexivity.
Qed.

Lemma installNotify_without_backend_witness :
  firmware_backend (rollback_mode (config_ (sample_bootloader kUnrecognized true))) = false /\
  shell_commands
    (issued (installNotify (platform_answering 0 "2.0" 0 0)
                           (sample_bootloader kUnrecognized true) sample_target)
            (world_empty false)) = [].
Proof.
  split; [reflexivity|].
  apply (installNotify_without_backend (platform_answering 0 "2.0" 0 0)
           (sample_bootloader kUnrecognized true) sample_target
           (world_empty false) eq_refl).
Defined.

(** A leaf of the case analysis in which a recorded exit status
    contradicts what is known of the executor. *)
Ltac status_contradiction Hall :=
  exfalso;
  match goal with
  | E : shell _ ?h ?c ?s = (?rc, _), N : negb (?rc =? 0)%Z = _ |- _ =>
      let H := fresh in
      pose proof (Hall h c s) as H; rewrite E in H; cbn in H;
      first [ rewrite H in N; discriminate N
            | apply negb_false_iff, Z.eqb_eq in N; exact (H N) ]
  end.

(** X6.  When every command exits with status 0, [setBootOK] and
    [updateNotify] log nothing: their events are the commands of the
    table and nothing else. *)
Theorem dispatch_quiet_on_success (env : Platform) (b : Bootloader) (w : World) :
  (forall h cmd sink, fst (shell env h cmd sink) = 0%Z) ->
  issued (setBootOK env b) w
    = map EvShell (acknowledgeBootOk_table (rollback_mode (config_ b))) /\
  issued (updateNotify env b) w
    = map EvShell (notifyUpdateApplied_table (rollback_mode (config_ b))).
Proof.
  intros Hall. split.
  - apply issued_app. unfold setBootOK.
    destruct (rollback_mode (config_ b)); unfold_calls; destruct_calls;
      try status_contradiction Hall;
      rewrite <- ?app_assoc, ?app_nil_r; reflexivity.
  - apply issued_app. unfold updateNotify.
    destruct (rollback_mode (config_ b)); unfold_calls; destruct_calls;
      try status_contradiction Hall;
      rewrite <- ?app_assoc, ?app_nil_r; reflexivity.
Qed.

Lemma dispatch_quiet_on_success_witness :
  (forall h cmd sink,
     fst (shell (platform_answering 0 "" 0 0) h cmd sink) = 0%Z) /\
  issued (updateNotify (platform_answering 0 "" 0 0)
                       (sample_bootloader kFioVB true)) (world_empty false)
  = [EvShell "fiovb_setenv bootcount 0";
     EvShell "fiovb_setenv upgrade_available 1";
     EvShell "fiovb_setenv rollback 0"].
Proof.
  split; [intros; reflexivity|].
  apply (dispatch_quiet_on_success (platform_answering 0 "" 0 0)
           (sample_bootloader kFioVB true) (world_empty false)).
  intros; reflexivity.
Defined.

(** X7.  [setBootOK] and [updateNotify] never log more warnings than they
    run commands, and when every command fails they log one warning per
    command: a failure does not stop the commands that follow. *)
Theorem dispatch_warns_per_failure (env : Platform) (b : Bootloader) (w : World) :
  count_warnings (issued (setBootOK env b) w)
    <= length (shell_commands (issued (setBootOK env b) w)) /\
  count_warnings (issued (updateNotify env b) w)
    <= length (shell_commands (issued (updateNotify env b) w)) /\
  ((forall h cmd sink, fst (shell env h cmd sink) <> 0%Z) ->
   count_warnings (issued (setBootOK env b) w)
     = length (acknowledgeBootOk_table (rollback_mode (config_ b))) /\
   count_warnings (issued (updateNotify env b) w)
     = length (notifyUpdateApplied_table (rollback_mode (config_ b)))).
Proof.
  assert (Hset : exists evs, trace (exec (setBootOK env b) w) = trace w ++ evs /\
            count_warnings evs <= length (shell_commands evs) /\
            ((forall h cmd sink, fst (shell env h cmd sink) <> 0%Z) ->
             count_warnings evs
             = length (acknowledgeBootOk_table (rollback_mode (config_ b))))).
  { unfold setBootOK.
    destruct (rollback_mode (config_ b)); unfold_calls; destruct_calls.
    all: eexists; split;
      [rewrite <- ?app_assoc; cbn; try reflexivity; symmetry; apply app_nil_r|].
    all: split; [cbn; lia|].
    all: intros Hall; cbn; try reflexivity; status_contradiction Hall. }
  assert (Hupd : exists evs, trace (exec (updateNotify env b) w) = trace w ++ evs /\
            count_warnings evs <= length (shell_commands evs) /\
            ((forall h cmd sink, fst (shell env h cmd sink) <> 0%Z) ->
             count_warnings evs
             = length (notifyUpdateApplied_table (rollback_mode (config_ b))))).
  { unfold updateNotify.
    destruct (rollback_mode (config_ b)); unfold_calls; destruct_calls.
    all: eexists; split;
      [rewrite <- ?app_assoc; cbn; try reflexivity; symmetry; apply app_nil_r|].
    all: split; [cbn; lia|].
    all: intros Hall; cbn; try reflexivity; status_contradiction Hall. }
  destruct Hset as (e1 & T1 & B1 & F1), Hupd as (e2 & T2 & B2 & F2).
  rewrite (issued_app _ _ _ T1), (issued_app _ _ _ T2).
  split; [exact B1|]. split; [exact B2|].
  intros Hall. split; [apply F1 | apply F2]; exact Hall.
Qed.

Lemma dispatch_warns_per_failure_witness :
  (forall h cmd sink,
     fst (shell (platform_answering 1 "" 0 0) h cmd sink) <> 0%Z) /\
  count_warnings
    (issued (updateNotify (platform_answering 1 "" 0 0)
                          (sample_bootloader kUbootMasked true))
            (world_empty false)) = 3.
Proof.
  split; [intros; discriminate|].
  apply (dispatch_warns_per_failure (platform_answering 1 "" 0 0)
           (sample_bootloader kUbootMasked true) (world_empty false)).
  intros; discriminate.
Defined.

(** ** The protocol and the filesystem *)

(** X9.  Running [rebootFlagSet] or [rebootFlagClear] again, after it
    completed or after a fault between its two writes, ends with the
    files and the stored flag of a single uninterrupted run. *)
Theorem protocol_rerun (b : Bootloader) (w : World) :
  reboot_detect_supported_ b = true ->
  let same (w1 w2 : World) :=
    fs w1 = fs w2 /\ need_reboot_stored w1 = need_reboot_stored w2 in
  same (exec (rebootFlagSet b) (crash_after 1 (rebootFlagSet_body b) w))
       (exec (rebootFlagSet b) w) /\
  same (exec (rebootFlagSet b) (exec (rebootFlagSet b) w))
       (exec (rebootFlagSet b) w) /\
  same (exec (rebootFlagClear b) (crash_after 1 (rebootFlagClear_body b) w))
       (exec (rebootFlagClear b) w) /\
  same (exec (rebootFlagClear b) (exec (rebootFlagClear b) w))
       (exec (rebootFlagClear b) w).
Proof.
  intros Hs. cbn zeta.
  rewrite crash_in_rebootFlagSet, crash_in_rebootFlagClear.
  unfold exec. rewrite !rebootFlagSet_run, !rebootFlagClear_run by exact Hs.
  cbn [snd fs need_reboot_stored].
  rewrite insert_insert_eq, delete_delete_eq. repeat split.
Qed.

Lemma protocol_rerun_witness :
  reboot_detect_supported_ (sample_bootloader kUbootMasked true) = true /\
  need_reboot_stored
    (exec (rebootFlagSet (sample_bootloader kUbootMasked true))
          (crash_after 1 (rebootFlagSet_body (sample_bootloader kUbootMasked true))
                       (world_empty false)))
  = need_reboot_stored
      (exec (rebootFlagSet (sample_bootloader kUbootMasked true)) (world_empty false)).
Proof.
  split; [reflexivity|].
  apply (protocol_rerun (sample_bootloader kUbootMasked true) (world_empty false)
           eq_refl).
Defined.

(** X10.  [rebootFlagSet] followed by [rebootFlagClear] ends with the flag
    false and the sentinel removed; if there was no file at the sentinel
    path before, the files are exactly as before. *)
Theorem set_then_clear (b : Bootloader) (w : World) :
  reboot_detect_supported_ b = true ->
  let w' := exec (rebootFlagClear b) (exec (rebootFlagSet b) w) in
  need_reboot_stored w' = false /\
  fs w' = delete (reboot_sentinel_ b) (fs w) /\
  (fs w !! reboot_sentinel_ b = None -> fs w' = fs w).
Proof.
  intros Hs. cbn zeta. unfold exec.
  rewrite rebootFlagSet_run, rebootFlagClear_run by exact Hs.
  cbn [snd fs need_reboot_stored]. rewrite delete_insert_eq.
  split; [reflexivity|]. split; [reflexivity|]. apply delete_id.
Qed.

Lemma set_then_clear_witness :
  reboot_detect_supported_ (sample_bootloader kFioVB true) = true /\
  fs (world_with sample_version_file "2.1" true) !!
     reboot_sentinel_ (sample_bootloader kFioVB true) = None /\
  fs (exec (rebootFlagClear (sample_bootloader kFioVB true))
           (exec (rebootFlagSet (sample_bootloader kFioVB true))
                 (world_with sample_version_file "2.1" true)))
  = fs (world_with sample_version_file "2.1" true).
Proof.
  split; [reflexivity|]. split; [reflexivity|].
  apply (set_then_clear (sample_bootloader kFioVB true)
           (world_with sample_version_file "2.1" true) eq_refl).
  reflexivity.
Defined.

Lemma roundtrip_world env b w :
  reboot_detect_supported_ b = true ->
  fs (exec (roundtrip env b) w) = delete (reboot_sentinel_ b) (fs w) /\
  need_reboot_stored (exec (roundtrip env b) w) = false.
Proof.
  intros Hs. unfold exec, roundtrip.
  erewrite bind_returned by (apply rebootFlagSet_run; exact Hs).
  erewrite bind_returned by (apply rebootDetected_run; exact Hs).
  erewrite bind_returned by apply fake_reboot_run.
  erewrite bind_returned by (apply rebootDetected_run; exact Hs).
  erewrite bind_returned by (apply rebootFlagClear_run; exact Hs).
  erewrite bind_returned by (apply rebootDetected_run; exact Hs).
  cbn [snd fs need_reboot_stored mret M_ret].
  rewrite delete_delete_eq, delete_insert_eq. split; reflexivity.
Qed.

(** X11.  From a clean state (flag false, no sentinel) the whole cycle
    set, simulated reboot, clear, with the three queries, ends in the
    same clean state: same files, flag false. *)
Theorem cycle_restores_clean_state (env : Platform) (b : Bootloader) (w : World) :
  reboot_detect_supported_ b = true ->
  need_reboot_stored w = false ->
  fs w !! reboot_sentinel_ b = None ->
  fs (exec (roundtrip env b) w) = fs w /\
  need_reboot_stored (exec (roundtrip env b) w) = need_reboot_stored w.
Proof.
  intros Hs Hflag Hfile.
  destruct (roundtrip_world env b w Hs) as [-> ->].
  split; [apply delete_id, Hfile | symmetry; exact Hflag].
Qed.

Lemma cycle_restores_clean_state_witness :
  reboot_detect_supported_ (sample_bootloader kUbootGeneric true) = true /\
  need_reboot_stored (world_with sample_version_file "2.1" false) = false /\
  fs (world_with sample_version_file "2.1" false) !!
     reboot_sentinel_ (sample_bootloader kUbootGeneric true) = None /\
  fs (exec (roundtrip (platform_answering 0 "" 0 0)
                      (sample_bootloader kUbootGeneric true))
           (world_with sample_version_file "2.1" false))
  = fs (world_with sample_version_file "2.1" false).
Proof.
  split; [reflexivity|]. split; [reflexivity|]. split; [reflexivity|].
  apply (cycle_restores_clean_state (platform_answering 0 "" 0 0)
           (sample_bootloader kUbootGeneric true)
           (world_with sample_version_file "2.1" false));
    reflexivity.
Defined.



(** ** Construction *)

Lemma Bootloader_new_insecure env config w :
  createSecureDirectory env (trace w) (reboot_sentinel_dir config) = false ->
  Bootloader_new env config w =
    (Returned (mkBootloader config
                 (path_append env (reboot_sentinel_dir config)
                              (reboot_sentinel_name config))
                 (reboot_command config) false),
     mkWorld (fs w) (need_reboot_stored w)
       (trace w ++
        [EvCreateSecureDirectory (reboot_sentinel_dir config);
         EvLog LWarning ["Could not create "; reboot_sentinel_dir config;
                         " securely, reboot detection support disabled"]])).
Proof.
  intros Hc. unfold Bootloader_new. unfold_calls. rewrite Hc. cbn.
  rewrite <- app_assoc. reflexivity.
Qed.

(** X13.  A freshly constructed object reports a detected reboot exactly
    when the sentinel directory could be secured, the stored flag is
    true and no file exists at directory / name; construction changes
    neither the files nor the flag. *)
Theorem detection_after_start (env : Platform) (config : BootloaderConfig)
    (w : World) :
  let sentinel :=
    path_append env (reboot_sentinel_dir config) (reboot_sentinel_name config) in
  outcome (start_and_detect env config) w =
    Returned (createSecureDirectory env (trace w) (reboot_sentinel_dir config)
              && need_reboot_stored w
              && negb (bool_decide (is_Some (fs w !! sentinel)))) /\
  fs (exec (start_and_detect env config) w) = fs w /\
  need_reboot_stored (exec (start_and_detect env config) w) = need_reboot_stored w.
Proof.
  cbn zeta.
  destruct (Bootloader_new_run env config w) as (w' & Hnew & Hfs & Hflag).
  unfold outcome, exec, start_and_detect.
  erewrite bind_returned by exact Hnew.
  destruct (createSecureDirectory env (trace w) (reboot_sentinel_dir config)).
  - rewrite rebootDetected_run by reflexivity.
    unfold sentinel_exists. cbn. rewrite Hfs, Hflag. repeat split.
  - rewrite rebootDetected_unsupported by reflexivity.
    cbn. rewrite Hfs, Hflag. repeat split.
Qed.

(** X14.  When the sentinel directory cannot be secured, the object is
    constructed all the same, with a warning; set, clear and query on it
    then make no further external call, leave the files and the flag
    alone, and the query returns false. *)
Theorem insecure_directory_disables_protocol (env : Platform)
    (config : BootloaderConfig) (w : World) :
  createSecureDirectory env (trace w) (reboot_sentinel_dir config) = false ->
  outcome (start_and_use env config) w = Returned false /\
  fs (exec (start_and_use env config) w) = fs w /\
  need_reboot_stored (exec (start_and_use env config) w) = need_reboot_stored w /\
  issued (start_and_use env config) w =
    [EvCreateSecureDirectory (reboot_sentinel_dir config);
     EvLog LWarning ["Could not create "; reboot_sentinel_dir config;
                     " securely, reboot detection support disabled"]].
Proof.
  intros Hc.
  assert (Hrun : start_and_use env config w =
    (Returned false,
     mkWorld (fs w) (need_reboot_stored w)
       (trace w ++
        [EvCreateSecureDirectory (reboot_sentinel_dir config);
         EvLog LWarning ["Could not create "; reboot_sentinel_dir config;
                         " securely, reboot detection support disabled"]]))).
  { unfold start_and_use.
    erewrite bind_returned by (apply Bootloader_new_insecure; exact Hc).
    reflexivity. }
  unfold outcome, exec. rewrite (issued_run _ _ _ _ _ _ Hrun), Hrun.
  repeat split.
Qed.

Lemma insecure_directory_disables_protocol_witness :
  createSecureDirectory platform_insecure_dir (trace (world_empty true))
    (reboot_sentinel_dir (sample_config kUbootMasked)) = false /\
  outcome (start_and_use platform_insecure_dir (sample_config kUbootMasked))
          (world_empty true) = Returned false.
Proof.
  split; [reflexivity|].
  apply (insecure_directory_disables_protocol platform_insecure_dir
           (sample_config kUbootMasked) (world_empty true) eq_refl).
Defined.

(** ** The comparison of versions *)

Lemma differs_longer (p v : string) :
  p <> EmptyString -> StdString.differs (p +:+ v) v = true.
Proof.
  intros Hp. unfold StdString.differs. apply negb_true_iff, String.eqb_neq.
  intros Heq. apply (f_equal String.length) in Heq.
  rewrite StdString_length_append in Heq.
  destruct p as [|c p]; [congruence | simpl in Heq; lia].
Qed.

(** X15.  The key is removed from the content of the file only, never
    from what the executor printed.  When the version file holds
    the flag, one character and a version, and the executor prints the
    very same text (key, separator, version), the two strings compared
    differ and the "set bootupgrade_available 1" command is issued. *)
Theorem key_value_report_triggers (env : Platform) (b : Bootloader)
    (target : Target) (w : World) (c : Ascii.ascii) (v : string) :
  firmware_backend (rollback_mode (config_ b)) = true ->
  file_content w (version_file_of (sha256Hash target))
    = version_flag +:+ String c v ->
  snd (printenv_answer env b target w)
    = file_content w (version_file_of (sha256Hash target)) ->
  count_shell (bootupgrade_command (rollback_mode (config_ b)))
              (issued (installNotify env b target) w) = 1.
Proof.
  intros Hf Hfile Hsink.
  rewrite installNotify_count by exact Hf.
  rewrite Hsink, Hfile.
  replace (drop_version_flag (version_flag +:+ String c v)) with v by reflexivity.
  change (version_flag +:+ String c v)
    with ((version_flag +:+ String c EmptyString) +:+ v).
  rewrite differs_longer; [reflexivity | discriminate].
Qed.

Lemma key_value_report_triggers_witness :
  firmware_backend (rollback_mode (config_ (sample_bootloader kUbootMasked true))) = true /\
  count_shell "fw_setenv bootupgrade_available 1"
    (issued (installNotify (platform_answering 0 "bootfirmware_version=2.1" 0 0)
                           (sample_bootloader kUbootMasked true) sample_target)
            (world_with sample_version_file "bootfirmware_version=2.1" false)) = 1.
Proof.
  split; [reflexivity|].
  apply (key_value_report_triggers
           (platform_answering 0 "bootfirmware_version=2.1" 0 0)
           (sample_bootloader kUbootMasked true) sample_target
           (world_with sample_version_file "bootfirmware_version=2.1" false)
           (Ascii.ascii_of_nat 61) "2.1"); reflexivity.
Defined.
